(** * The tenant-service syncer of the virtual-cluster incubator

    A shallow embedding of
    [incubator/virtualcluster/pkg/syncer/controllers/service/controller.go]:
    the controller that mirrors the [v1.Service] objects of the tenant masters
    into the super master.

    The Go code talks to four collaborators that it only sees through an
    interface or through another package: the super master's service client,
    the rate limited work queue, the multi cluster controller engine and the
    [conversion] helpers.  Each one is a type class here, so that every
    theorem holds whatever the collaborator does; small executable instances
    at the end of the model make the statements runnable. *)

From Stdlib Require Import ZArith String List.
From stdpp Require Import base option strings gmap list.

Open Scope string_scope.
Open Scope list_scope.

(** ** Kubernetes objects *)

Module k8s.

(** [metav1.ObjectMeta], with the fields the syncer reads or rewrites. *)
Record ObjectMeta := {
  Name : string;
  Namespace : string;
  ResourceVersion : string;
  UID : string;
  Labels : gmap string string;
  Annotations : gmap string string
}.

Record ServicePort := {
  PortName : string;
  Port : Z;
  NodePort : Z
}.

Record ServiceSpec := {
  ClusterIP : string;
  Ports : list ServicePort;
  Selector : gmap string string
}.

(** [v1.Service].  A [*v1.Service] is modelled by the value it points to:
    the informers and the engine hand out pointers to objects, never nil. *)
Record Service := {
  Meta : ObjectMeta;
  Spec : ServiceSpec
}.

(** The dynamic value of an [interface{}] (or [runtime.Object]) variable:
    the nil interface, a [*v1.Service], a [cache.ExplicitKey], or a value of
    any other type, which may or may not carry object metadata. *)
Inductive Object :=
| ObjNil
| ObjService (s : Service)
| ObjExplicitKey (key : string)
| ObjOther (typeName : string) (m : option ObjectMeta).

(** The dynamic type, as a failed type assertion prints it. *)
Definition dynamicType (obj : Object) : string :=
  match obj with
  | ObjNil => "nil"
  | ObjService _ => "*v1.Service"
  | ObjExplicitKey _ => "cache.ExplicitKey"
  | ObjOther typeName _ => typeName
  end.

(** The run-time error of a failed assertion of a value of the interface
    type [static] to [*v1.Service]. *)
Definition conversionPanic (static : string) (obj : Object) : string :=
  "interface conversion: " +:+ static +:+ " is " +:+ dynamicType obj
    +:+ ", not *v1.Service".

(** [metav1.StatusReason], as far as the callers of the API tell them
    apart. *)
Inductive StatusReason :=
| StatusReasonUnknown
| StatusReasonAlreadyExists
| StatusReasonNotFound
| StatusReasonConflict
| StatusReasonTimeout
| StatusReasonServerTimeout
| StatusReasonTooManyRequests
| StatusReasonInternalError.

(** A non-nil Go [error]: an API status error, or any other error. *)
Inductive Err :=
| StatusError (reason : StatusReason) (message : string)
| ErrorString (message : string).

(** The Go type [error]; [None] is [nil]. *)
Definition error := option Err.

#[global] Instance StatusReason_eq_dec : EqDecision StatusReason :=
  ltac:(solve_decision).

(** [errors.ReasonForError]: the reason of an API status, unknown for
    everything else, [nil] included. *)
Definition ReasonForError (err : error) : StatusReason :=
  match err with
  | Some (StatusError reason _) => reason
  | _ => StatusReasonUnknown
  end.

Definition IsAlreadyExists (err : error) : bool :=
  bool_decide (ReasonForError err = StatusReasonAlreadyExists).

Definition IsNotFound (err : error) : bool :=
  bool_decide (ReasonForError err = StatusReasonNotFound).

(** The zero value [v1.Service{}]. *)
Definition zeroService : Service :=
  {| Meta := {| Name := ""; Namespace := ""; ResourceVersion := ""; UID := "";
                Labels := ∅; Annotations := ∅ |};
     Spec := {| ClusterIP := ""; Ports := []; Selector := ∅ |} |}.

Inductive DeletionPropagation :=
| DeletePropagationOrphan
| DeletePropagationBackground
| DeletePropagationForeground.

Record DeleteOptions := {
  PropagationPolicy : option DeletionPropagation
}.

(** [meta.Accessor]: the metadata of an object that has some. *)
Definition Accessor (obj : Object) : option ObjectMeta :=
  match obj with
  | ObjService s => Some (Meta s)
  | ObjOther _ m => m
  | ObjNil | ObjExplicitKey _ => None
  end.

(** [cache.MetaNamespaceKeyFunc]: [namespace/name], or [name] alone for an
    object without namespace; for an object without metadata the error of
    [meta.Accessor], wrapped as "object has no meta: %v". *)
Definition MetaNamespaceKeyFunc (obj : Object) : string * error :=
  match obj with
  | ObjExplicitKey key => (key, None)
  | _ =>
    match Accessor obj with
    | None =>
      ("", Some (ErrorString
                   "object has no meta: object does not implement the Object interfaces"))
    | Some m =>
      if (0 <? String.length (Namespace m))%nat
      then (Namespace m +:+ "/" +:+ Name m, None)
      else (Name m, None)
    end
  end.

End k8s.
Import k8s.

(** ** The packages of the syncer the controller is built on *)

(** [reconciler.EventType] is an open tag: the three named constants, and
    whatever else a caller puts into a request. *)
Inductive EventType :=
| AddEvent
| UpdateEvent
| DeleteEvent
| OtherEvent (tag : string).

(** [cluster.Cluster], of which the controller reads the name.  A
    [*cluster.Cluster] is modelled by the value it points to: the functions
    below are those of a call with a pointer that is not nil. *)
Record Cluster := {
  ClusterName : string
}.

(** [reconciler.Request]. *)
Record Request := {
  ReqCluster : Cluster;
  ReqNamespace : string;
  ReqName : string;
  Event : EventType;
  Obj : Object
}.

(** [reconciler.Result]; [Result{}] is [{Requeue: false}]. *)
Record Result := {
  Requeue : bool
}.

(** The values [serviceInformer.Lister()] and
    [serviceInformer.Informer().HasSynced] of the informer handed to
    [Register]. *)
Inductive ServiceLister := InformerLister.
Inductive InformerSynced := InformerHasSynced.

(** The [controller] struct.  Its fields [serviceClient], [queue] and
    [multiClusterServiceController] point to shared mutable objects; these
    live in the [World] below, and the struct keeps the fields it holds by
    value. *)
Record controller := {
  workers : Z;
  serviceLister : option ServiceLister;
  serviceSynced : option InformerSynced
}.

(** [sc.Options] and [sc.WatchOptions]. *)
Record Options := {
  Reconciler : controller
}.

Record WatchOptions := EmptyWatchOptions {}.

(** The functions an informer calls back.  [Register] installs a method
    value and a function literal; both close over the controller, so a
    handler is the controller it was built from. *)
Inductive AddFuncT := AddFunc_enqueueService (c : controller).
Inductive UpdateFuncT := UpdateFunc_literal (c : controller).
Inductive DeleteFuncT := .

(** [cache.ResourceEventHandlerFuncs]; [None] is a nil function. *)
Record ResourceEventHandlerFuncs := {
  AddFunc : option AddFuncT;
  UpdateFunc : option UpdateFuncT;
  DeleteFunc : option DeleteFuncT
}.

(** [klog] calls are recorded with their format string and arguments. *)
Inductive Severity := InfoLevel | WarningLevel | ErrorLevel.

Inductive LogArg :=
| LStr (s : string)
| LEvent (e : EventType)
| LErr (e : error).

Record LogEntry := {
  severity : Severity;
  format : string;
  args : list LogArg
}.

(** A call of the super master's service API, with the error it answered. *)
Inductive HostCall :=
| CallCreate (namespace : string) (service : Service) (answer : error)
| CallDelete (namespace name : string) (opts : DeleteOptions) (answer : error).

(** ** Collaborators *)

(** [v1core.ServicesGetter]: [Services(namespace).Create(service)] and
    [Services(namespace).Delete(name, opts)] against a cluster state. *)
Class ServicesGetter (Host : Type) := {
  ServicesCreate : string -> Service -> Host -> (option Service * error) * Host;
  ServicesDelete : string -> string -> DeleteOptions -> Host -> error * Host
}.

(** [workqueue.RateLimitingInterface]; a new queue has the rate limiter
    [workqueue.DefaultControllerRateLimiter()]. *)
Class RateLimitingInterface (Queue : Type) := {
  NewNamedRateLimitingQueue : string -> Queue;
  QueueAdd : string -> Queue -> Queue
}.

(** [sc.MultiClusterController]. *)
Class MultiClusterController (MCC : Type) := {
  NewController : string -> Object -> Options -> option MCC * error;
  WatchClusterResource : Cluster -> WatchOptions -> MCC -> error * MCC
}.

(** Package [conversion]. *)
Class Conversion := {
  ToSuperMasterNamespace : string -> string -> string;
  BuildMetadata : string -> string -> Object -> Object * error;
  MutateService : Service -> Service
}.

(** Package [constants]. *)
Class Constants := {
  DefaultControllerWorkers : Z;
  DefaultDeletionPolicy : DeletionPropagation
}.

(** ** The world the controller runs in, and Go functions as a monad *)

(** Everything the controller shares with the rest of the process: the super
    master behind [serviceClient] and the calls made to it, the work queue
    behind [c.queue], the engine behind [c.multiClusterServiceController]
    ([None] while that pointer is nil), the log, the handlers attached to the
    service informer and the controllers added to the controller manager. *)
Record World (Host Queue MCC : Type) := {
  host : Host;
  hostCalls : list HostCall;
  queue : Queue;
  mcc : option MCC;
  klog : list LogEntry;
  informerHandlers : list ResourceEventHandlerFuncs;
  managerControllers : list controller
}.

Arguments host {Host Queue MCC} _.
Arguments hostCalls {Host Queue MCC} _.
Arguments queue {Host Queue MCC} _.
Arguments mcc {Host Queue MCC} _.
Arguments klog {Host Queue MCC} _.
Arguments informerHandlers {Host Queue MCC} _.
Arguments managerControllers {Host Queue MCC} _.

(** A Go call returns, or panics. *)
Inductive result (A : Type) :=
| Ok (a : A)
| Panic (msg : string).

Arguments Ok {A} a.
Arguments Panic {A} msg.

Section Controller.

Context {Host Queue MCC : Type}.
Context {services : ServicesGetter Host} {workqueue : RateLimitingInterface Queue}
        {engine : MultiClusterController MCC} {conversion : Conversion}
        {constants : Constants}.

Abbreviation World := (World Host Queue MCC).

Definition M (A : Type) : Type := World -> result A * World.

#[local] Instance M_ret : MRet M := fun A a w => (Ok a, w).

#[local] Instance M_bind : MBind M := fun A B f m w =>
  match m w with
  | (Ok a, w') => f a w'
  | (Panic msg, w') => (Panic msg, w')
  end.

Definition panic {A : Type} (msg : string) : M A := fun w => (Panic msg, w).

(** *** Field updates of the world *)

Definition with_host (h : Host) (call : HostCall) (w : World) : World :=
  {| host := h; hostCalls := hostCalls w ++ [call]; queue := queue w;
     mcc := mcc w; klog := klog w; informerHandlers := informerHandlers w;
     managerControllers := managerControllers w |}.

Definition with_queue (q : Queue) (w : World) : World :=
  {| host := host w; hostCalls := hostCalls w; queue := q;
     mcc := mcc w; klog := klog w; informerHandlers := informerHandlers w;
     managerControllers := managerControllers w |}.

Definition with_mcc (m : option MCC) (w : World) : World :=
  {| host := host w; hostCalls := hostCalls w; queue := queue w;
     mcc := m; klog := klog w; informerHandlers := informerHandlers w;
     managerControllers := managerControllers w |}.

Definition with_log (e : LogEntry) (w : World) : World :=
  {| host := host w; hostCalls := hostCalls w; queue := queue w;
     mcc := mcc w; klog := klog w ++ [e]; informerHandlers := informerHandlers w;
     managerControllers := managerControllers w |}.

Definition with_handler (h : ResourceEventHandlerFuncs) (w : World) : World :=
  {| host := host w; hostCalls := hostCalls w; queue := queue w;
     mcc := mcc w; klog := klog w;
     informerHandlers := informerHandlers w ++ [h];
     managerControllers := managerControllers w |}.

Definition with_controller (c : controller) (w : World) : World :=
  {| host := host w; hostCalls := hostCalls w; queue := queue w;
     mcc := mcc w; klog := klog w; informerHandlers := informerHandlers w;
     managerControllers := managerControllers w ++ [c] |}.

(** *** The calls the controller makes *)

Definition Infof (fmt : string) (a : list LogArg) : M unit := fun w =>
  (Ok tt, with_log {| severity := InfoLevel; format := fmt; args := a |} w).

Definition Warningf (fmt : string) (a : list LogArg) : M unit := fun w =>
  (Ok tt, with_log {| severity := WarningLevel; format := fmt; args := a |} w).

Definition Errorf (fmt : string) (a : list LogArg) : M unit := fun w =>
  (Ok tt, with_log {| severity := ErrorLevel; format := fmt; args := a |} w).

(** [utilruntime.HandleError] reports the error to the log, as
    [klog.Error(err)] does. *)
Definition HandleError (err : error) : M unit :=
  Errorf "%v" [LErr err].

(** [c.serviceClient.Services(namespace).Create(service)]. *)
Definition Services_Create (namespace : string) (service : Service)
  : M (option Service * error) := fun w =>
  let '(r, h) := ServicesCreate namespace service (host w) in
  (Ok r, with_host h (CallCreate namespace service (snd r)) w).

(** [c.serviceClient.Services(namespace).Delete(name, opts)]. *)
Definition Services_Delete (namespace name : string) (opts : DeleteOptions)
  : M error := fun w =>
  let '(err, h) := ServicesDelete namespace name opts (host w) in
  (Ok err, with_host h (CallDelete namespace name opts err) w).

(** [c.queue.Add(key)]. *)
Definition queue_Add (key : string) : M unit := fun w =>
  (Ok tt, with_queue (QueueAdd key (queue w)) w).

(** [c.multiClusterServiceController.WatchClusterResource(cluster, opts)], a
    method of the engine the field points to; called through a nil pointer it
    panics when it reads its receiver. *)
Definition mcc_WatchClusterResource (cluster : Cluster) (opts : WatchOptions)
  : M error := fun w =>
  match mcc w with
  | None => (Panic "invalid memory address or nil pointer dereference", w)
  | Some m =>
    let '(err, m') := WatchClusterResource cluster opts m in
    (Ok err, with_mcc (Some m') w)
  end.

(** The type assertion [obj.( *v1.Service)], which panics on any other
    dynamic type and on the nil interface. *)
Definition assertService (static : string) (obj : Object) : M Service :=
  match obj with
  | ObjService s => mret s
  | _ => panic (conversionPanic static obj)
  end.

(** *** controller.go *)

Definition enqueueService (c : controller) (obj : Object) : M unit :=
  let '(key, err) := MetaNamespaceKeyFunc obj in
  match err with
  | Some _ => HandleError err
  | None => queue_Add key
  end.

(** The function literal [Register] installs as [UpdateFunc]. *)
Definition updateService (c : controller) (oldObj newObj : Object) : M unit :=
  newService ← assertService "interface {}" newObj;
  oldService ← assertService "interface {}" oldObj;
  if String.eqb (ResourceVersion (Meta newService))
                (ResourceVersion (Meta oldService))
  then mret tt
  else enqueueService c newObj.

(** The handlers [Register] attaches to the service informer. *)
Definition serviceEventHandler (c : controller) : ResourceEventHandlerFuncs :=
  {| AddFunc := Some (AddFunc_enqueueService c);
     UpdateFunc := Some (UpdateFunc_literal c);
     DeleteFunc := None |}.

(** [ResourceEventHandlerFuncs.OnAdd] and [OnUpdate]: call the function
    unless it is nil. *)
Definition OnAdd (r : ResourceEventHandlerFuncs) (obj : Object) : M unit :=
  match AddFunc r with
  | Some (AddFunc_enqueueService c) => enqueueService c obj
  | None => mret tt
  end.

Definition OnUpdate (r : ResourceEventHandlerFuncs) (oldObj newObj : Object)
  : M unit :=
  match UpdateFunc r with
  | Some (UpdateFunc_literal c) => updateService c oldObj newObj
  | None => mret tt
  end.

(** [Register(serviceClient, serviceInformer, controllerManager)]: the three
    arguments are the super master, the informer and the manager of the
    world, none of them nil.  The controller and its new queue are local to
    the call until the handlers and the manager get hold of the controller:
    the queue and the engine of the world are those of the controller that is
    registered, and a call that returns early drops its controller and leaves
    them alone. *)
Definition Register : M unit := fun w =>
  let c := {| workers := DefaultControllerWorkers;
              serviceLister := None; serviceSynced := None |} in
  let c_queue := NewNamedRateLimitingQueue "super_master_service" in
  let options := {| Reconciler := c |} in
  let '(multiClusterServiceController, err) :=
    NewController "tenant-masters-service-controller" (ObjService zeroService)
                  options in
  match err with
  | Some _ =>
    Errorf "failed to create multi cluster service controller %v" [LErr err] w
  | None =>
    let w := with_queue c_queue w in
    let w := with_mcc multiClusterServiceController w in
    let c := {| workers := workers c;
                serviceLister := Some InformerLister;
                serviceSynced := Some InformerHasSynced |} in
    let w := with_handler (serviceEventHandler c) w in
    (Ok tt, with_controller c w)
  end.

Definition reconcileServiceCreate (c : controller)
  (cluster namespace name : string) (service : Service) : M error :=
  let targetNamespace := ToSuperMasterNamespace cluster namespace in
  let '(newObj, err) := BuildMetadata cluster targetNamespace (ObjService service) in
  match err with
  | Some _ => mret err
  | None =>
    pService ← assertService "runtime.Object" newObj;
    let pService := MutateService pService in
    r ← Services_Create targetNamespace pService;
    let err := snd r in
    if IsAlreadyExists err
    then
      Infof "service %s/%s of cluster %s already exist in super master"
            [LStr namespace; LStr name; LStr cluster];;
      mret None
    else mret err
  end.

Definition reconcileServiceUpdate (c : controller)
  (cluster namespace name : string) (service : Service) : M error :=
  mret None.

Definition reconcileServiceRemove (c : controller)
  (cluster namespace name : string) (service : Service) : M error :=
  let targetNamespace := ToSuperMasterNamespace cluster namespace in
  let opts := {| PropagationPolicy := Some DefaultDeletionPolicy |} in
  err ← Services_Delete targetNamespace name opts;
  if IsNotFound err
  then
    Warningf "service %s/%s of cluster not found in super master"
             [LStr namespace; LStr name];;
    mret None
  else mret err.

(** The [switch] of [Reconcile] returns early from a failing case
    ([Some] of the values returned) or falls through to the last line. *)
Definition Reconcile (c : controller) (request : Request)
  : M (Result * error) :=
  Infof "reconcile service %s/%s %s event for cluster %s"
        [LStr (ReqNamespace request); LStr (ReqName request);
         LEvent (Event request); LStr (ClusterName (ReqCluster request))];;
  returned ←
    match Event request with
    | AddEvent =>
      service ← assertService "interface {}" (Obj request);
      err ← reconcileServiceCreate c (ClusterName (ReqCluster request))
              (ReqNamespace request) (ReqName request) service;
      match err with
      | Some _ =>
        Errorf "failed reconcile service %s/%s CREATE of cluster %s %v"
               [LStr (ReqNamespace request); LStr (ReqName request);
                LStr (ClusterName (ReqCluster request)); LErr err];;
        mret (Some ({| Requeue := true |}, err))
      | None => mret None
      end
    | UpdateEvent =>
      service ← assertService "interface {}" (Obj request);
      err ← reconcileServiceUpdate c (ClusterName (ReqCluster request))
              (ReqNamespace request) (ReqName request) service;
      match err with
      | Some _ =>
        Errorf "failed reconcile service %s/%s CREATE of cluster %s %v"
               [LStr (ReqNamespace request); LStr (ReqName request);
                LStr (ClusterName (ReqCluster request)); LErr err];;
        mret (Some ({| Requeue := true |}, err))
      | None => mret None
      end
    | DeleteEvent =>
      service ← assertService "interface {}" (Obj request);
      err ← reconcileServiceRemove c (ClusterName (ReqCluster request))
              (ReqNamespace request) (ReqName request) service;
      match err with
      | Some _ =>
        Errorf "failed reconcile service %s/%s DELETE of cluster %s %v"
               [LStr (ReqNamespace request); LStr (ReqName request);
                LStr (ClusterName (ReqCluster request)); LErr err];;
        mret (Some ({| Requeue := true |}, err))
      | None => mret None
      end
    | OtherEvent _ => mret None
    end;
  match returned with
  | Some r => mret r
  | None => mret ({| Requeue := false |}, None)
  end.

Definition AddCluster (c : controller) (cluster : Cluster) : M unit :=
  Infof "tenant-masters-service-controller watch cluster %s for service resource"
        [LStr (ClusterName cluster)];;
  err ← mcc_WatchClusterResource cluster EmptyWatchOptions;
  match err with
  | Some _ =>
    Errorf "failed to watch cluster %s service event: %v"
           [LStr (ClusterName cluster); LErr err]
  | None => mret tt
  end.

Definition RemoveCluster (c : controller) (cluster : Cluster) : M unit :=
  Warningf "not implemented yet" [].

(** *** Reading a run *)

(** The handler the [switch] of [Reconcile] calls for an event kind. *)
Definition handlerFor (e : EventType)
  : option (controller -> string -> string -> string -> Service -> M error) :=
  match e with
  | AddEvent => Some reconcileServiceCreate
  | UpdateEvent => Some reconcileServiceUpdate
  | DeleteEvent => Some reconcileServiceRemove
  | OtherEvent _ => None
  end.

(** The line [Reconcile] logs on entry. *)
Definition entering (request : Request) : LogEntry :=
  {| severity := InfoLevel;
     format := "reconcile service %s/%s %s event for cluster %s";
     args := [LStr (ReqNamespace request); LStr (ReqName request);
              LEvent (Event request); LStr (ClusterName (ReqCluster request))] |}.

(** The answers of the super master that are no failure for [Reconcile]:
    a nil error, "already exists" to a Create, "not found" to a Delete. *)
Definition benign (call : HostCall) : bool :=
  match call with
  | CallCreate _ _ None | CallDelete _ _ _ None => true
  | CallCreate _ _ answer => IsAlreadyExists answer
  | CallDelete _ _ _ answer => IsNotFound answer
  end.

(** The error a call was answered with. *)
Definition answerOf (call : HostCall) : error :=
  match call with
  | CallCreate _ _ answer => answer
  | CallDelete _ _ _ answer => answer
  end.

(** Two worlds with the same wiring: the same work queue, engine, informer
    handlers and registered controllers. *)
Definition sameWiring (w w' : World) : Prop :=
  queue w' = queue w ∧ mcc w' = mcc w
  ∧ informerHandlers w' = informerHandlers w
  ∧ managerControllers w' = managerControllers w.

(** What a handler may add to the log: nothing, or one line below the error
    level. *)
Definition quietLog (w w' : World) : Prop :=
  klog w' = klog w
  ∨ ∃ entry, klog w' = klog w ++ [entry] ∧ severity entry ≠ ErrorLevel.

End Controller.

(** ** Executable collaborators *)

Module Fake.

(** Modelled from the spec: the super master's service API, which is not a
    part of this file.  Objects are stored by namespace and name; a Create of
    an object that exists answers "already exists" and a Delete of one that
    is absent answers "not found", the two conditions the outbound interface
    expects the transport to signal. *)
#[export] Instance services : ServicesGetter (gmap (string * string) Service) := {
  ServicesCreate namespace service h :=
    match h !! (namespace, Name (Meta service)) with
    | Some _ =>
      ((None, Some (StatusError StatusReasonAlreadyExists "already exists")), h)
    | None =>
      ((Some service, None), <[(namespace, Name (Meta service)) := service]> h)
    end;
  ServicesDelete namespace name opts h :=
    match h !! (namespace, name) with
    | Some _ => (None, delete (namespace, name) h)
    | None => (Some (StatusError StatusReasonNotFound "not found"), h)
    end
}.

(** Modelled from the spec: a super master that answers every call with a
    transient failure (a timeout). *)
Inductive Unreachable := unreachable.

#[export] Instance unreachable_services : ServicesGetter Unreachable := {
  ServicesCreate namespace service h :=
    ((None, Some (StatusError StatusReasonTimeout "timeout")), h);
  ServicesDelete namespace name opts h :=
    (Some (StatusError StatusReasonTimeout "timeout"), h)
}.

(** Modelled from the spec: the event queue, whose [Add] coalesces duplicate
    keys into one pending item. *)
#[export] Instance workqueue : RateLimitingInterface (list string) := {
  NewNamedRateLimitingQueue name := [];
  QueueAdd key q := if decide (key ∈ q) then q else q ++ [key]
}.

(** Modelled from the spec: the multi cluster controller engine of package
    [controller], as the names of the clusters it watches: watching a cluster
    routes its events to the reconciler. *)
#[export] Instance engine : MultiClusterController (list string) := {
  NewController name objectType options := (Some [], None);
  WatchClusterResource cluster opts m :=
    (None, if decide (ClusterName cluster ∈ m) then m
           else m ++ [ClusterName cluster])
}.

(** Modelled from the spec: an engine whose construction step fails. *)
Inductive NoEngine := .

#[export] Instance no_engine : MultiClusterController NoEngine := {
  NewController name objectType options :=
    (None, Some (ErrorString "must specify a reconciler"));
  WatchClusterResource cluster opts m := match m with end
}.

(** Modelled from the spec: package [conversion].  The namespace translator
    joins the cluster and the namespace with a dash, which tells two pairs
    apart as long as cluster names have no dash, as those of the scenario;
    no property below depends on it.  [BuildMetadata] copies the object,
    sets its namespace to the target and stamps the source cluster and
    namespace as labels, and fails on an object that is not a service;
    [MutateService] rewrites the one field that is meaningful only in the
    tenant, the cluster IP. *)
#[export] Instance conversion : Conversion := {
  ToSuperMasterNamespace cluster ns := cluster +:+ "-" +:+ ns;
  BuildMetadata cluster targetNamespace obj :=
    match obj with
    | ObjService s =>
      (ObjService
         {| Meta := {| Name := Name (Meta s);
                       Namespace := targetNamespace;
                       ResourceVersion := ResourceVersion (Meta s);
                       UID := UID (Meta s);
                       Labels := <["cluster" := cluster]>
                                   (<["namespace" := Namespace (Meta s)]>
                                      (Labels (Meta s)));
                       Annotations := Annotations (Meta s) |};
            Spec := Spec s |}, None)
    | _ => (ObjNil, Some (ErrorString "object does not implement the Object interfaces"))
    end;
  MutateService s :=
    {| Meta := Meta s;
       Spec := {| ClusterIP := ""; Ports := Ports (Spec s);
                  Selector := Selector (Spec s) |} |}
}.

(** Modelled from the spec: a [conversion] package whose [BuildMetadata]
    cannot convert the object. *)
Definition failing_conversion : Conversion := {|
  ToSuperMasterNamespace cluster ns := cluster +:+ "-" +:+ ns;
  BuildMetadata cluster targetNamespace obj :=
    (ObjNil, Some (ErrorString "object does not implement the Object interfaces"));
  MutateService s := s
|}.

(** Modelled from the spec: package [constants]; the deletion policy
    cascades to dependent objects. *)
#[export] Instance constants : Constants := {
  DefaultControllerWorkers := 3;
  DefaultDeletionPolicy := DeletePropagationBackground
}.

(** The scenario: service [web] of namespace [default] of tenant [c1]. *)
Definition web : Service :=
  {| Meta := {| Name := "web"; Namespace := "default";
                ResourceVersion := "1"; UID := "uid-1";
                Labels := ∅; Annotations := ∅ |};
     Spec := {| ClusterIP := "10.0.0.7";
                Ports := [{| PortName := "http"; Port := 80; NodePort := 0 |}];
                Selector := {["app" := "web"]} |} |}.

Definition web2 : Service :=
  {| Meta := {| Name := "web"; Namespace := "default";
                ResourceVersion := "2"; UID := "uid-1";
                Labels := ∅; Annotations := ∅ |};
     Spec := Spec web |}.

Definition c1 : Cluster := {| ClusterName := "c1" |}.

Definition request (e : EventType) (o : Object) : Request :=
  {| ReqCluster := c1; ReqNamespace := "default"; ReqName := "web";
     Event := e; Obj := o |}.

Definition ctrl : controller :=
  {| workers := 3; serviceLister := Some InformerLister;
     serviceSynced := Some InformerHasSynced |}.

(** A world in which nothing has happened yet. *)
Definition world0 {Host MCC : Type} (h : Host) : World Host (list string) MCC :=
  {| host := h; hostCalls := []; queue := []; mcc := None; klog := [];
     informerHandlers := []; managerControllers := [] |}.

Definition empty_host : gmap (string * string) Service := ∅.

(** The super master is empty and reachable; nothing is registered. *)
Definition start
  : World (gmap (string * string) Service) (list string) (list string) :=
  world0 empty_host.

(** The super master cannot be reached. *)
Definition offline : World Unreachable (list string) (list string) :=
  world0 unreachable.

(** The engine cannot be constructed. *)
Definition engineless
  : World (gmap (string * string) Service) (list string) NoEngine :=
  world0 empty_host.

(** The copy of [web] that [BuildMetadata] makes for tenant [c1]. *)
Definition copied_web : Service :=
  {| Meta := {| Name := "web"; Namespace := "c1-default";
                ResourceVersion := "1"; UID := "uid-1";
                Labels := {["cluster" := "c1"; "namespace" := "default"]};
                Annotations := ∅ |};
     Spec := Spec web |}.

(** The copy of [web] the super master receives. *)
Definition mirrored_web : Service :=
  {| Meta := {| Name := "web"; Namespace := "c1-default";
                ResourceVersion := "1"; UID := "uid-1";
                Labels := {["cluster" := "c1"; "namespace" := "default"]};
                Annotations := ∅ |};
     Spec := {| ClusterIP := "";
                Ports := [{| PortName := "http"; Port := 80; NodePort := 0 |}];
                Selector := {["app" := "web"]} |} |}.

End Fake.


(** * Properties of the controller *)

Section Properties.

Context {Host Queue MCC : Type}.
Context {services : ServicesGetter Host} {workqueue : RateLimitingInterface Queue}
        {engine : MultiClusterController MCC} {conversion : Conversion}
        {constants : Constants}.

Abbreviation World' := (World Host Queue MCC).

(** The steps of a run: unfold the monad and the calls. *)
Ltac run :=
  unfold Reconcile, reconcileServiceCreate, reconcileServiceUpdate,
    reconcileServiceRemove, updateService, enqueueService, OnUpdate, OnAdd,
    AddCluster, RemoveCluster, HandleError, assertService,
    Services_Create, Services_Delete, queue_Add, mcc_WatchClusterResource,
    Infof, Warningf, Errorf, panic, mbind, mret, M_bind, M_ret in *;
  simpl in *.

(** Runs of [Reconcile], one event kind at a time. *)
Ltac run_reconcile :=
  unfold Reconcile, assertService, reconcileServiceUpdate, Infof, Errorf,
    panic, mbind, mret, M_bind, M_ret in *;
  simpl in *.

(** A list is never itself with one more element. *)
Lemma snoc_neq_self {A : Type} (l : list A) (x : A) : l ≠ l ++ [x].
Proof.
  intros E. apply (f_equal length) in E.
  rewrite length_app in E. simpl in E. lia.
Qed.

Lemma snoc_inj_self {A : Type} (l : list A) (x y : A) :
  l ++ [x] = l ++ [y] → x = y.
Proof. intros E. apply app_inv_head in E. congruence. Qed.

(** What a run of the Create handler is: it stops at a conversion error,
    panics on a copy that is no service, and otherwise makes one call. *)
Lemma reconcileServiceCreate_run c cluster ns name service (w : World') :
  reconcileServiceCreate c cluster ns name service w =
  let target := ToSuperMasterNamespace cluster ns in
  match BuildMetadata cluster target (ObjService service) with
  | (_, Some e) => (Ok (Some e), w)
  | (ObjService p, None) =>
    let r := ServicesCreate target (MutateService p) (host w) in
    let w1 := with_host (snd r)
                (CallCreate target (MutateService p) (snd (fst r))) w in
    if IsAlreadyExists (snd (fst r))
    then (Ok None,
          with_log {| severity := InfoLevel;
                      format := "service %s/%s of cluster %s already exist in super master";
                      args := [LStr ns; LStr name; LStr cluster] |} w1)
    else (Ok (snd (fst r)), w1)
  | (o, None) => (Panic (conversionPanic "runtime.Object" o), w)
  end.
Proof.
  run. destruct (BuildMetadata _ _ _) as [o [e|]]; destruct o; try reflexivity.
  destruct (ServicesCreate _ _ _) as [[o e] h]; simpl.
  destruct (IsAlreadyExists e); reflexivity.
Qed.

(** What a run of the Delete handler is: always one call. *)
Lemma reconcileServiceRemove_run c cluster ns name service (w : World') :
  reconcileServiceRemove c cluster ns name service w =
  let target := ToSuperMasterNamespace cluster ns in
  let opts := {| PropagationPolicy := Some DefaultDeletionPolicy |} in
  let r := ServicesDelete target name opts (host w) in
  let w1 := with_host (snd r) (CallDelete target name opts (fst r)) w in
  if IsNotFound (fst r)
  then (Ok None,
        with_log {| severity := WarningLevel;
                    format := "service %s/%s of cluster not found in super master";
                    args := [LStr ns; LStr name] |} w1)
  else (Ok (fst r), w1).
Proof.
  run. destruct (ServicesDelete _ _ _) as [e h]; simpl.
  destruct (IsNotFound e); reflexivity.
Qed.

Lemma Reconcile_not_service c request (w : World') :
  Event request = AddEvent ∨ Event request = UpdateEvent
    ∨ Event request = DeleteEvent →
  (∀ s, Obj request ≠ ObjService s) →
  Reconcile c request w =
  (Panic (conversionPanic "interface {}" (Obj request)),
   with_log (entering request) w).
Proof.
  intros Hev Hobj. run_reconcile. unfold entering.
  destruct (Obj request) as [|s| |]; try (exfalso; by eapply Hobj);
    destruct Hev as [->|[->| ->]]; reflexivity.
Qed.

Lemma Reconcile_handler c request service handler (w : World') :
  Obj request = ObjService service →
  handlerFor (Event request) = Some handler →
  Reconcile c request w =
  match handler c (ClusterName (ReqCluster request)) (ReqNamespace request)
          (ReqName request) service (with_log (entering request) w) with
  | (Ok (Some e), w1) =>
    (Ok ({| Requeue := true |}, Some e),
     with_log {| severity := ErrorLevel;
                 format := match Event request with
                           | DeleteEvent => "failed reconcile service %s/%s DELETE of cluster %s %v"
                           | _ => "failed reconcile service %s/%s CREATE of cluster %s %v"
                           end;
                 args := [LStr (ReqNamespace request); LStr (ReqName request);
                          LStr (ClusterName (ReqCluster request));
                          LErr (Some e)] |} w1)
  | (Ok None, w1) => (Ok ({| Requeue := false |}, None), w1)
  | (Panic msg, w1) => (Panic msg, w1)
  end.
Proof.
  intros Hobj Hh. unfold Reconcile, mbind, mret, M_bind, M_ret, Infof, Errorf.
  rewrite Hobj. unfold entering.
  destruct (Event request); simpl in Hh; inversion Hh; subst handler; simpl;
    try match goal with |- context [?h c ?a ?b ?d service ?w0] =>
      destruct (h c a b d service w0) as [[[e|]|msg] w1] end;
    reflexivity.
Qed.

Lemma Reconcile_other c request tag (w : World') :
  Event request = OtherEvent tag →
  Reconcile c request w =
  (Ok ({| Requeue := false |}, None), with_log (entering request) w).
Proof. intros Hev. run_reconcile. unfold entering. rewrite Hev. reflexivity. Qed.

(** The two ways a run of the Create handler ends: without a call, in a
    panic or with the conversion error; or after one Create, with the answer
    unless it is "already exists". *)
Lemma reconcileServiceCreate_cases c cluster ns name service (w w' : World') r :
  reconcileServiceCreate c cluster ns name service w = (r, w') →
  (w' = w ∧ ((∃ msg, r = Panic msg) ∨ (∃ e, r = Ok (Some e))))
  ∨ (∃ p answer,
       BuildMetadata cluster (ToSuperMasterNamespace cluster ns)
         (ObjService service) = (ObjService p, None)
       ∧ hostCalls w' = hostCalls w ++
           [CallCreate (ToSuperMasterNamespace cluster ns) (MutateService p)
              answer]
       ∧ r = Ok (if IsAlreadyExists answer then None else answer)).
Proof.
  rewrite reconcileServiceCreate_run. simpl.
  destruct (BuildMetadata _ _ _) as [o [e|]] eqn:Hb; destruct o;
    try (intros [= <- <-]; left; split; [reflexivity|]; eauto; fail).
  destruct (ServicesCreate _ _ _) as [[o answer] h]; simpl.
  destruct (IsAlreadyExists answer) eqn:Ha; intros [= <- <-]; right;
    exists s, answer; rewrite Ha; auto.
Qed.

(** A run of the Delete handler makes one Delete, and ends with the answer
    unless it is "not found". *)
Lemma reconcileServiceRemove_cases c cluster ns name service (w w' : World') r :
  reconcileServiceRemove c cluster ns name service w = (r, w') →
  ∃ answer,
    hostCalls w' = hostCalls w ++
      [CallDelete (ToSuperMasterNamespace cluster ns) name
         {| PropagationPolicy := Some DefaultDeletionPolicy |} answer]
    ∧ r = Ok (if IsNotFound answer then None else answer).
Proof.
  rewrite reconcileServiceRemove_run. simpl.
  destruct (ServicesDelete _ _ _ _) as [answer h]; simpl.
  destruct (IsNotFound answer) eqn:Ha; intros [= <- <-];
    exists answer; rewrite Ha; auto.
Qed.

(** C1 — Idempotent create.  Whenever the Create call of a run is answered
    "already exists", [reconcileServiceCreate] returns a nil error, and
    [Reconcile] of the Create request returns [Result{Requeue: false}] and a
    nil error. *)
Theorem create_already_exists_is_success :
  (∀ c cluster ns name service (w w' : World') r,
     reconcileServiceCreate c cluster ns name service w = (r, w') →
     (∃ target copy answer,
        hostCalls w' = hostCalls w ++ [CallCreate target copy answer]
        ∧ IsAlreadyExists answer = true) →
     r = Ok None)
  ∧ (∀ c request (w w' : World') r,
       Event request = AddEvent →
       Reconcile c request w = (r, w') →
       (∃ target copy answer,
          hostCalls w' = hostCalls w ++ [CallCreate target copy answer]
          ∧ IsAlreadyExists answer = true) →
       r = Ok ({| Requeue := false |}, None)).
Proof.
  assert (Hcreate : ∀ c cluster ns name service (w w' : World') r,
     reconcileServiceCreate c cluster ns name service w = (r, w') →
     (∃ target copy answer,
        hostCalls w' = hostCalls w ++ [CallCreate target copy answer]
        ∧ IsAlreadyExists answer = true) →
     r = Ok None).
  { intros c cluster ns name service w w' r Hrun (target & copy & answer & Hc & Ha).
    apply reconcileServiceCreate_cases in Hrun
      as [[-> _]|(p & answer' & _ & Hc' & ->)].
    - by apply snoc_neq_self in Hc.
    - rewrite Hc' in Hc. apply snoc_inj_self in Hc.
      injection Hc as _ _ ->. by rewrite Ha. }
  split; [exact Hcreate|].
  intros c request w w' r Hev Hrun Hcall.
  destruct (Obj request) as [|service| |] eqn:Hobj.
  2: { rewrite (Reconcile_handler c request service reconcileServiceCreate)
         in Hrun by (by rewrite ?Hev).
       destruct (reconcileServiceCreate _ _ _ _ _ _) as [[[e|]|msg] w1] eqn:Hh;
         injection Hrun as <- <-; [exfalso| reflexivity | exfalso];
         apply Hcreate in Hh; try discriminate; exact Hcall. }
  all: rewrite Reconcile_not_service in Hrun by (rewrite ?Hobj; auto);
    injection Hrun as <- <-; destruct Hcall as (? & ? & ? & Hc & _);
    by apply snoc_neq_self in Hc.
Qed.

(** C2 — Idempotent delete.  Whenever the Delete call of a run is answered
    "not found", [reconcileServiceRemove] returns a nil error, and [Reconcile]
    of the Delete request returns [Result{Requeue: false}] and a nil error. *)
Theorem delete_not_found_is_success :
  (∀ c cluster ns name service (w w' : World') r,
     reconcileServiceRemove c cluster ns name service w = (r, w') →
     (∃ target n opts answer,
        hostCalls w' = hostCalls w ++ [CallDelete target n opts answer]
        ∧ IsNotFound answer = true) →
     r = Ok None)
  ∧ (∀ c request (w w' : World') r,
       Event request = DeleteEvent →
       Reconcile c request w = (r, w') →
       (∃ target n opts answer,
          hostCalls w' = hostCalls w ++ [CallDelete target n opts answer]
          ∧ IsNotFound answer = true) →
       r = Ok ({| Requeue := false |}, None)).
Proof.
  assert (Hremove : ∀ c cluster ns name service (w w' : World') r,
     reconcileServiceRemove c cluster ns name service w = (r, w') →
     (∃ target n opts answer,
        hostCalls w' = hostCalls w ++ [CallDelete target n opts answer]
        ∧ IsNotFound answer = true) →
     r = Ok None).
  { intros c cluster ns name service w w' r Hrun
      (target & n & opts & answer & Hc & Ha).
    apply reconcileServiceRemove_cases in Hrun as (answer' & Hc' & ->).
    rewrite Hc' in Hc. apply snoc_inj_self in Hc.
    injection Hc as _ _ _ ->. by rewrite Ha. }
  split; [exact Hremove|].
  intros c request w w' r Hev Hrun Hcall.
  destruct (Obj request) as [|service| |] eqn:Hobj.
  2: { rewrite (Reconcile_handler c request service reconcileServiceRemove)
         in Hrun by (by rewrite ?Hev).
       destruct (reconcileServiceRemove _ _ _ _ _ _) as [[[e|]|msg] w1] eqn:Hh;
         injection Hrun as <- <-; [exfalso| reflexivity | exfalso];
         apply Hremove in Hh; try discriminate; exact Hcall. }
  all: rewrite Reconcile_not_service in Hrun by (rewrite ?Hobj; auto);
    injection Hrun as <- <-; destruct Hcall as (? & ? & ? & ? & Hc & _);
    by apply snoc_neq_self in Hc.
Qed.

(** C3 — Failure retry.  [Reconcile] returns [Result{Requeue: true}] with
    the error of the handler of the event kind when that error is not nil, and
    [Result{Requeue: false}] with a nil error when it is nil.  A run that
    ends in a nil error has [Requeue] false, and every call it made to the
    super master was answered without a failure ("already exists" to a
    Create and "not found" to a Delete apart). *)
Theorem reconcile_requeues_on_handler_error :
  (∀ c request service handler (w : World'),
     Obj request = ObjService service →
     handlerFor (Event request) = Some handler →
     let run := handler c (ClusterName (ReqCluster request))
                  (ReqNamespace request) (ReqName request) service
                  (with_log (entering request) w) in
     (∀ e, fst run = Ok (Some e) →
           fst (Reconcile c request w) = Ok ({| Requeue := true |}, Some e))
     ∧ (fst run = Ok None →
        Reconcile c request w = (Ok ({| Requeue := false |}, None), snd run)))
  ∧ (∀ c request (w w' : World') res,
       Reconcile c request w = (Ok (res, None), w') →
       Requeue res = false
       ∧ ∃ calls, hostCalls w' = hostCalls w ++ calls
                  ∧ Forall (λ call, benign call = true) calls).
Proof.
  split.
  - intros c request service handler w Hobj Hh run.
    rewrite (Reconcile_handler c request service handler) by assumption.
    fold run. destruct run as [[[e|]|msg] w1]; simpl; split;
      intros; simplify_eq; reflexivity.
  - intros c request w w' res Hrun.
    destruct (Event request) as [| | |tag] eqn:Hev.
    4: { rewrite (Reconcile_other c request tag) in Hrun by assumption.
         injection Hrun as <- <-. split; [reflexivity|].
         exists []. by rewrite app_nil_r. }
    all: destruct (Obj request) as [|service| |] eqn:Hobj;
      try (rewrite Reconcile_not_service in Hrun by (rewrite ?Hobj; auto);
           discriminate).
    + rewrite (Reconcile_handler c request service reconcileServiceCreate)
        in Hrun by (by rewrite ?Hev).
      destruct (reconcileServiceCreate _ _ _ _ _ _) as [[[e|]|msg] w1] eqn:Hh;
        try discriminate.
      injection Hrun as <- <-. split; [reflexivity|].
      apply reconcileServiceCreate_cases in Hh
        as [[-> _]|(p & answer & _ & Hc & Hr)].
      * exists []. by rewrite app_nil_r.
      * eexists; split; [exact Hc|]. constructor; [|constructor].
        destruct answer as [e|]; [|reflexivity]. simpl.
        destruct (IsAlreadyExists (Some e)); [reflexivity|discriminate].
    + rewrite (Reconcile_handler c request service reconcileServiceUpdate)
        in Hrun by (by rewrite ?Hev).
      injection Hrun as <- <-. split; [reflexivity|].
      exists []. by rewrite app_nil_r.
    + rewrite (Reconcile_handler c request service reconcileServiceRemove)
        in Hrun by (by rewrite ?Hev).
      destruct (reconcileServiceRemove _ _ _ _ _ _) as [[[e|]|msg] w1] eqn:Hh;
        try discriminate.
      injection Hrun as <- <-. split; [reflexivity|].
      apply reconcileServiceRemove_cases in Hh as (answer & Hc & Hr).
      eexists; split; [exact Hc|]. constructor; [|constructor].
      destruct answer as [e|]; [|reflexivity]. simpl.
      destruct (IsNotFound (Some e)); [reflexivity|discriminate].
Qed.

(** C4 — Create mirrors into the translated namespace.  When
    [BuildMetadata], called with the target namespace
    [ToSuperMasterNamespace cluster namespace], returns the copy [p], the
    Create handler makes exactly one call to the super master: the Create of
    [MutateService p] in that target namespace, whose answer decides the
    state of the super master.  When [BuildMetadata] keeps the name and sets
    the namespace, and [MutateService] leaves the metadata alone, the object
    submitted has the tenant object's name and the target namespace. *)
Theorem create_submits_translated_copy
  c cluster ns name service p (w : World') :
  let target := ToSuperMasterNamespace cluster ns in
  BuildMetadata cluster target (ObjService service) = (ObjService p, None) →
  let w' := snd (reconcileServiceCreate c cluster ns name service w) in
  let answer := ServicesCreate target (MutateService p) (host w) in
  (hostCalls w' = hostCalls w ++
     [CallCreate target (MutateService p) (snd (fst answer))]
   ∧ host w' = snd answer)
  ∧ (Name (Meta p) = Name (Meta service) →
     Namespace (Meta p) = target →
     Meta (MutateService p) = Meta p →
     Name (Meta (MutateService p)) = Name (Meta service)
     ∧ Namespace (Meta (MutateService p)) = target).
Proof.
  intros target Hb w' answer. split.
  - subst w'. rewrite reconcileServiceCreate_run. simpl. fold target.
    rewrite Hb. fold answer.
    destruct (IsAlreadyExists (snd (fst answer))); simpl; auto.
  - intros Hname Hns ->. auto.
Qed.

(** C5, amended — Update is a no-op.  [reconcileServiceUpdate] returns a
    nil error and leaves the world as it is; [Reconcile] of an Update request,
    whatever its object, adds its entry line to the log and changes nothing
    else, the super master and the calls made to it included; and for an
    Update request that carries a service it returns [Result{Requeue: false}]
    and a nil error. *)
Theorem update_is_noop :
  (∀ c cluster ns name service (w : World'),
     reconcileServiceUpdate c cluster ns name service w = (Ok None, w))
  ∧ (∀ c request (w : World'),
       Event request = UpdateEvent →
       let w' := snd (Reconcile c request w) in
       w' = with_log (entering request) w
       ∧ host w' = host w ∧ hostCalls w' = hostCalls w)
  ∧ (∀ c request service (w : World'),
       Event request = UpdateEvent →
       Obj request = ObjService service →
       fst (Reconcile c request w) = Ok ({| Requeue := false |}, None)).
Proof.
  split; [reflexivity|]. split.
  - intros c request w Hev w'.
    assert (Hw : w' = with_log (entering request) w).
    { subst w'. destruct (Obj request) as [|service| |] eqn:Hobj.
      2: { by rewrite
             (Reconcile_handler c request service reconcileServiceUpdate)
             by (by rewrite ?Hev). }
      all: by rewrite Reconcile_not_service by (rewrite ?Hobj; auto). }
    by rewrite Hw.
  - intros c request service w Hev Hobj.
    by rewrite (Reconcile_handler c request service reconcileServiceUpdate)
      by (by rewrite ?Hev).
Qed.

(** C6 — No-op resync suppression.  The handlers [Register] attaches drop
    an update notification whose old and new service have the same resource
    version: the world, and so the work queue, stays as it is.  When the
    resource versions differ, the key of the new service is added to the
    work queue. *)
Theorem update_notification_enqueues_on_new_version
  c oldService newService (w : World') :
  let notify := OnUpdate (serviceEventHandler c) (ObjService oldService)
                  (ObjService newService) in
  (ResourceVersion (Meta newService) = ResourceVersion (Meta oldService) →
   notify w = (Ok tt, w))
  ∧ (ResourceVersion (Meta newService) ≠ ResourceVersion (Meta oldService) →
     notify w =
     (Ok tt,
      with_queue
        (QueueAdd (if (0 <? String.length (Namespace (Meta newService)))%nat
                   then Namespace (Meta newService) +:+ "/" +:+
                        Name (Meta newService)
                   else Name (Meta newService))
           (queue w)) w)).
Proof.
  intros notify. subst notify. unfold OnUpdate. simpl. run.
  unfold MetaNamespaceKeyFunc. simpl. split.
  - intros ->. by rewrite String.eqb_refl.
  - intros Hne. apply String.eqb_neq in Hne. rewrite Hne.
    by destruct (0 <? String.length (Namespace (Meta newService)))%nat.
Qed.

(** C7, amended — Malformed input.  A request for one of the three event
    kinds whose object is not a service makes [Reconcile] panic at the type
    assertion, after the entry line and before any call to the super master:
    no error is returned.  A Create request whose service [BuildMetadata]
    cannot convert makes [Reconcile] return [Result{Requeue: true}] with the
    conversion error, without a call to the super master. *)
Theorem reconcile_malformed_object :
  (∀ c request (w : World'),
     Event request = AddEvent ∨ Event request = UpdateEvent
       ∨ Event request = DeleteEvent →
     (∀ s, Obj request ≠ ObjService s) →
     ∃ msg, Reconcile c request w = (Panic msg, with_log (entering request) w))
  ∧ (∀ c request service o e (w : World'),
       Event request = AddEvent →
       Obj request = ObjService service →
       BuildMetadata (ClusterName (ReqCluster request))
         (ToSuperMasterNamespace (ClusterName (ReqCluster request))
            (ReqNamespace request))
         (ObjService service) = (o, Some e) →
       fst (Reconcile c request w) = Ok ({| Requeue := true |}, Some e)
       ∧ hostCalls (snd (Reconcile c request w)) = hostCalls w
       ∧ host (snd (Reconcile c request w)) = host w).
Proof.
  split.
  - intros c request w Hev Hobj. eexists.
    by apply Reconcile_not_service.
  - intros c request service o e w Hev Hobj Hb.
    rewrite (Reconcile_handler c request service reconcileServiceCreate)
      by (by rewrite ?Hev).
    rewrite reconcileServiceCreate_run. simpl. rewrite Hb.
    by destruct o.
Qed.

(** C9 — Construction failure.  When [NewController] returns an error,
    [Register] returns without a panic; it logs the error; it adds no
    controller to the manager and attaches no handler to the informer, and
    the engine field stays nil. *)
Theorem register_construction_failure m e (w : World') :
  NewController "tenant-masters-service-controller" (ObjService zeroService)
    {| Reconciler := {| workers := DefaultControllerWorkers;
                        serviceLister := None; serviceSynced := None |} |}
  = (m, Some e) →
  fst (Register w) = Ok tt
  ∧ managerControllers (snd (Register w)) = managerControllers w
  ∧ informerHandlers (snd (Register w)) = informerHandlers w
  ∧ mcc (snd (Register w)) = mcc w
  ∧ klog (snd (Register w)) = klog w ++
      [{| severity := ErrorLevel;
          format := "failed to create multi cluster service controller %v";
          args := [LErr (Some e)] |}]
  ∧ host (snd (Register w)) = host w
  ∧ hostCalls (snd (Register w)) = hostCalls w.
Proof.
  intros Hnew. unfold Register. rewrite Hnew. simpl. auto 10.
Qed.

(** When [NewController] succeeds, [Register] stores the engine, attaches
    the handlers of the finished controller to the informer and adds that
    controller to the manager. *)
Lemma Register_run m (w : World') :
  NewController "tenant-masters-service-controller" (ObjService zeroService)
    {| Reconciler := {| workers := DefaultControllerWorkers;
                        serviceLister := None; serviceSynced := None |} |}
  = (m, None) →
  let c := {| workers := DefaultControllerWorkers;
              serviceLister := Some InformerLister;
              serviceSynced := Some InformerHasSynced |} in
  Register w =
  (Ok tt,
   with_controller c
     (with_handler (serviceEventHandler c)
        (with_mcc m
           (with_queue (NewNamedRateLimitingQueue "super_master_service") w)))).
Proof. intros Hnew c. unfold Register. by rewrite Hnew. Qed.

(** C10 — Unknown event kind.  For an event kind that is none of the three
    constants, [Reconcile] returns [Result{Requeue: false}] and a nil error;
    it adds its entry line to the log and makes no call to the super
    master. *)
Theorem reconcile_unknown_event c request (w : World') :
  Event request ≠ AddEvent →
  Event request ≠ UpdateEvent →
  Event request ≠ DeleteEvent →
  Reconcile c request w =
    (Ok ({| Requeue := false |}, None), with_log (entering request) w)
  ∧ hostCalls (snd (Reconcile c request w)) = hostCalls w
  ∧ host (snd (Reconcile c request w)) = host w.
Proof.
  intros Ha Hu Hd. destruct (Event request) as [| | |tag] eqn:Hev; try done.
  by rewrite (Reconcile_other c request tag).
Qed.

(** [RemoveCluster] logs a warning and touches nothing else. *)
Lemma RemoveCluster_run c cluster (w : World') :
  RemoveCluster c cluster w =
  (Ok tt, with_log {| severity := WarningLevel;
                      format := "not implemented yet"; args := [] |} w).
Proof. reflexivity. Qed.

End Properties.

(** * The properties on the scenario *)

Import Fake.

(** The second Create of [web] is answered "already exists" and succeeds. *)
Lemma create_already_exists_is_success_witness :
  fst (Reconcile ctrl (request AddEvent (ObjService web))
         (snd (Reconcile ctrl (request AddEvent (ObjService web)) start)))
  = Ok ({| Requeue := false |}, None).
Proof.
  eapply (proj2 create_already_exists_is_success ctrl
            (request AddEvent (ObjService web))
            (snd (Reconcile ctrl (request AddEvent (ObjService web)) start))).
  - reflexivity.
  - apply surjective_pairing.
  - exists "c1-default", mirrored_web,
      (Some (StatusError StatusReasonAlreadyExists "already exists")).
    split; vm_compute; reflexivity.
Defined.

(** The Delete of [web] from an empty super master is answered "not found"
    and succeeds. *)
Lemma delete_not_found_is_success_witness :
  fst (Reconcile ctrl (request DeleteEvent (ObjService web)) start)
  = Ok ({| Requeue := false |}, None).
Proof.
  eapply (proj2 delete_not_found_is_success ctrl
            (request DeleteEvent (ObjService web)) start).
  - reflexivity.
  - apply surjective_pairing.
  - exists "c1-default", "web",
      {| PropagationPolicy := Some DeletePropagationBackground |},
      (Some (StatusError StatusReasonNotFound "not found")).
    split; vm_compute; reflexivity.
Defined.

(** A Create against a super master that times out is requeued with the
    timeout; against a reachable one it succeeds; and the successful run made
    only calls that were answered well. *)
Lemma reconcile_requeues_on_handler_error_witness :
  fst (Reconcile ctrl (request AddEvent (ObjService web)) offline)
  = Ok ({| Requeue := true |}, Some (StatusError StatusReasonTimeout "timeout"))
  ∧ fst (Reconcile ctrl (request AddEvent (ObjService web)) start)
    = Ok ({| Requeue := false |}, None)
  ∧ ∃ calls,
      hostCalls (snd (Reconcile ctrl (request AddEvent (ObjService web)) start))
      = hostCalls start ++ calls
      ∧ Forall (λ call, benign call = true) calls.
Proof.
  split; [|split].
  - apply (proj1 (proj1 reconcile_requeues_on_handler_error ctrl
                    (request AddEvent (ObjService web)) web
                    reconcileServiceCreate offline eq_refl eq_refl)).
    vm_compute; reflexivity.
  - rewrite (proj2 (proj1 reconcile_requeues_on_handler_error ctrl
                      (request AddEvent (ObjService web)) web
                      reconcileServiceCreate start eq_refl eq_refl));
      vm_compute; reflexivity.
  - apply (proj2 reconcile_requeues_on_handler_error ctrl
             (request AddEvent (ObjService web)) start
             (snd (Reconcile ctrl (request AddEvent (ObjService web)) start))
             {| Requeue := false |}).
    vm_compute; reflexivity.
Defined.

(** The Create of [web] of namespace [default] of tenant [c1] submits one
    object, named [web], to namespace [c1-default], where it then lives. *)
Lemma create_submits_translated_copy_witness :
  let w' := snd (reconcileServiceCreate ctrl "c1" "default" "web" web start) in
  hostCalls w' = [CallCreate "c1-default" mirrored_web None]
  ∧ host w' !! ("c1-default", "web") = Some mirrored_web
  ∧ Name (Meta mirrored_web) = Name (Meta web)
  ∧ Namespace (Meta mirrored_web) = "c1-default".
Proof.
  assert (Hcopy : BuildMetadata "c1" (ToSuperMasterNamespace "c1" "default")
                    (ObjService web) = (ObjService copied_web, None))
    by (vm_compute; reflexivity).
  destruct (create_submits_translated_copy ctrl "c1" "default" "web" web
              copied_web start Hcopy) as [[Hcalls Hhost] Hmeta].
  destruct Hmeta as [Hname Hns]; [reflexivity..|].
  intros w'. split; [|split; [|split]].
  - subst w'. rewrite Hcalls. vm_compute; reflexivity.
  - subst w'. rewrite Hhost. vm_compute; reflexivity.
  - exact Hname.
  - exact Hns.
Defined.

(** An Update of [web] changes nothing but the log, and succeeds. *)
Lemma update_is_noop_witness :
  reconcileServiceUpdate ctrl "c1" "default" "web" web2 start = (Ok None, start)
  ∧ host (snd (Reconcile ctrl (request UpdateEvent (ObjService web2)) start))
    = host start
  ∧ hostCalls (snd (Reconcile ctrl (request UpdateEvent (ObjService web2)) start))
    = hostCalls start
  ∧ fst (Reconcile ctrl (request UpdateEvent (ObjService web2)) start)
    = Ok ({| Requeue := false |}, None).
Proof.
  destruct (update_is_noop (Host := gmap (string * string) Service)
              (Queue := list string) (MCC := list string))
    as (Hhandler & Hframe & Hresult).
  split; [apply Hhandler|].
  destruct (Hframe ctrl (request UpdateEvent (ObjService web2)) start eq_refl)
    as (_ & Hhost & Hcalls).
  split; [exact Hhost|]. split; [exact Hcalls|].
  exact (Hresult ctrl (request UpdateEvent (ObjService web2)) web2 start
           eq_refl eq_refl).
Defined.

(** C5, as stated, fails: [Reconcile] of an Update request whose object is
    the nil interface reports no success, it panics at the type assertion;
    the super master is left alone all the same. *)
Lemma update_is_noop_counterexample :
  Event (request UpdateEvent ObjNil) = UpdateEvent
  ∧ fst (Reconcile ctrl (request UpdateEvent ObjNil) start)
    = Panic "interface conversion: interface {} is nil, not *v1.Service"
  ∧ fst (Reconcile ctrl (request UpdateEvent ObjNil) start)
    ≠ Ok ({| Requeue := false |}, None)
  ∧ host (snd (Reconcile ctrl (request UpdateEvent ObjNil) start)) = host start.
Proof.
  split; [reflexivity|]. split; [reflexivity|]. split; [|reflexivity].
  intros Hrun. vm_compute in Hrun. discriminate.
Qed.

(** A resync of [web] leaves the queue empty; its new version is queued as
    [default/web]. *)
Lemma update_notification_enqueues_on_new_version_witness :
  queue (snd (OnUpdate (serviceEventHandler ctrl) (ObjService web)
                (ObjService web) start)) = []
  ∧ queue (snd (OnUpdate (serviceEventHandler ctrl) (ObjService web)
                  (ObjService web2) start)) = ["default/web"].
Proof.
  split.
  - rewrite (proj1 (update_notification_enqueues_on_new_version ctrl web web
                      start) eq_refl).
    reflexivity.
  - rewrite (proj2 (update_notification_enqueues_on_new_version ctrl web web2
                      start)).
    + vm_compute; reflexivity.
    + vm_compute. discriminate.
Defined.

(** A Create request without an object panics; one whose service cannot be
    converted is requeued with the conversion error. *)
Lemma reconcile_malformed_object_witness :
  (∃ msg, fst (Reconcile ctrl (request AddEvent ObjNil) start) = Panic msg)
  ∧ fst (Reconcile (conversion := failing_conversion) ctrl
           (request AddEvent (ObjService web)) start)
    = Ok ({| Requeue := true |},
          Some (ErrorString "object does not implement the Object interfaces")).
Proof.
  split.
  - destruct (proj1 reconcile_malformed_object ctrl (request AddEvent ObjNil)
                start) as [msg Hrun].
    + left; reflexivity.
    + intros s; discriminate.
    + exists msg. by rewrite Hrun.
  - apply (proj2 (reconcile_malformed_object (conversion := failing_conversion))
             ctrl (request AddEvent (ObjService web)) web ObjNil
             (ErrorString "object does not implement the Object interfaces")
             start); reflexivity.
Defined.

(** C7, as stated, fails: [Reconcile] of a Create request whose object is
    the nil interface returns no error, it panics. *)
Lemma reconcile_malformed_object_counterexample :
  (∀ s, Obj (request AddEvent ObjNil) ≠ ObjService s)
  ∧ fst (Reconcile ctrl (request AddEvent ObjNil) start)
    = Panic "interface conversion: interface {} is nil, not *v1.Service"
  ∧ ¬ (∃ res e, fst (Reconcile ctrl (request AddEvent ObjNil) start)
                = Ok (res, Some e)).
Proof.
  split; [intros s; discriminate|]. split; [reflexivity|].
  intros (res & e & Hrun). vm_compute in Hrun. discriminate.
Qed.

(** C8 — Cluster removal.  After [Register] and [AddCluster] the engine
    watches cluster [c1]; [RemoveCluster] of [c1] then returns, leaves the
    super master and the calls made to it as they are, and leaves the engine
    watching [c1]: it logs "not implemented yet" and does nothing else. *)
Theorem remove_cluster_keeps_watching :
  let watching := snd (AddCluster ctrl c1 (snd (Register start))) in
  let removed := RemoveCluster ctrl c1 watching in
  mcc watching = Some ["c1"]
  ∧ fst removed = Ok tt
  ∧ mcc (snd removed) = Some ["c1"]
  ∧ host (snd removed) = host watching
  ∧ hostCalls (snd removed) = hostCalls watching
  ∧ klog (snd removed) = klog watching ++
      [{| severity := WarningLevel; format := "not implemented yet";
          args := [] |}].
Proof.
  intros watching removed. subst removed.
  rewrite (RemoveCluster_run ctrl c1 watching). simpl.
  repeat split. all: vm_compute; reflexivity.
Qed.

(** With an engine that cannot be constructed, [Register] returns, logs the
    error, and leaves manager and informer empty. *)
Lemma register_construction_failure_witness :
  fst (Register engineless) = Ok tt
  ∧ managerControllers (snd (Register engineless)) = []
  ∧ informerHandlers (snd (Register engineless)) = []
  ∧ klog (snd (Register engineless)) =
      [{| severity := ErrorLevel;
          format := "failed to create multi cluster service controller %v";
          args := [LErr (Some (ErrorString "must specify a reconciler"))] |}].
Proof.
  assert (Hnew : NewController (MCC := NoEngine)
                   "tenant-masters-service-controller" (ObjService zeroService)
                   {| Reconciler :=
                        {| workers := DefaultControllerWorkers;
                           serviceLister := None; serviceSynced := None |} |}
                 = (None, Some (ErrorString "must specify a reconciler")))
    by reflexivity.
  destruct (register_construction_failure None
              (ErrorString "must specify a reconciler") engineless Hnew)
    as (Hret & Hman & Hinf & _ & Hlog & _).
  split; [exact Hret|]. split; [exact Hman|]. split; [exact Hinf|exact Hlog].
Defined.

(** A request of event kind [Sync] succeeds without a call, whatever its
    object. *)
Lemma reconcile_unknown_event_witness :
  fst (Reconcile ctrl (request (OtherEvent "Sync") ObjNil) start)
  = Ok ({| Requeue := false |}, None)
  ∧ hostCalls (snd (Reconcile ctrl (request (OtherEvent "Sync") ObjNil) start))
    = [].
Proof.
  destruct (reconcile_unknown_event ctrl (request (OtherEvent "Sync") ObjNil)
              start) as (Hrun & Hcalls & _); try discriminate.
  split; [by rewrite Hrun|exact Hcalls].
Defined.

(** * Further properties of the controller *)

Section Behaviour.

Context {Host Queue MCC : Type}.
Context {services : ServicesGetter Host} {workqueue : RateLimitingInterface Queue}
        {engine : MultiClusterController MCC} {conversion : Conversion}
        {constants : Constants}.

(** A nil answer is no "already exists" and no "not found". *)
Lemma benign_answer (call : HostCall) :
  (if benign call then None else answerOf call) =
  match call with
  | CallCreate _ _ answer => if IsAlreadyExists answer then None else answer
  | CallDelete _ _ _ answer => if IsNotFound answer then None else answer
  end.
Proof.
  destruct call as [? ? [e|]|? ? ? [e|]]; reflexivity.
Qed.

(** What the handler of an event kind does to a world: it keeps the wiring
    and adds at most one quiet line to the log; it makes no call (and then
    it is not the Delete handler, and only the Update handler ends in a nil
    error), or one call in the translated namespace, whose answer decides
    the error it returns and the state of the super master. *)
Lemma handler_effect c e handler cluster ns name service
  (w w1 : World Host Queue MCC) h :
  handlerFor e = Some handler →
  handler c cluster ns name service w = (h, w1) →
  let target := ToSuperMasterNamespace cluster ns in
  let opts := {| PropagationPolicy := Some DefaultDeletionPolicy |} in
  sameWiring w w1 ∧ quietLog w w1
  ∧ ((w1 = w ∧ e ≠ DeleteEvent ∧ (h = Ok None → e = UpdateEvent))
     ∨ (∃ call,
          hostCalls w1 = hostCalls w ++ [call]
          ∧ h = Ok (if benign call then None else answerOf call)
          ∧ ((e = AddEvent
              ∧ ∃ p, BuildMetadata cluster target (ObjService service)
                     = (ObjService p, None)
                     ∧ call = CallCreate target (MutateService p)
                         (snd (fst (ServicesCreate target (MutateService p)
                                      (host w))))
                     ∧ host w1 = snd (ServicesCreate target (MutateService p)
                                        (host w)))
             ∨ (e = DeleteEvent
                ∧ call = CallDelete target name opts
                    (fst (ServicesDelete target name opts (host w)))
                ∧ host w1 = snd (ServicesDelete target name opts (host w)))))).
Proof.
  intros Hh Hrun target opts.
  destruct e as [| | |tag]; simpl in Hh; simplify_eq.
  - rewrite reconcileServiceCreate_run in Hrun. simpl in Hrun. fold target in Hrun.
    destruct (BuildMetadata cluster target (ObjService service))
      as [o [e|]] eqn:Hb; destruct o as [|p| |];
      try (injection Hrun as <- <-;
           split; [by repeat split|]; split; [by left|]; left;
           split; [reflexivity|]; split; discriminate).
    destruct (ServicesCreate target (MutateService p) (host w))
      as [[o answer] hst] eqn:Hc; simpl in Hrun.
    destruct (IsAlreadyExists answer) eqn:Ha; injection Hrun as <- <-;
      (split; [by repeat split|]); (split; [|right]).
    + right. eexists; split; [reflexivity|discriminate].
    + eexists; split; [reflexivity|]. rewrite benign_answer, Ha.
      split; [reflexivity|]. left. split; [reflexivity|].
      exists p. by rewrite Hc.
    + by left.
    + eexists; split; [reflexivity|]. rewrite benign_answer, Ha.
      split; [reflexivity|]. left. split; [reflexivity|].
      exists p. by rewrite Hc.
  - injection Hrun as <- <-. split; [by repeat split|]. split; [by left|].
    left. split; [reflexivity|]. split; [discriminate|done].
  - rewrite reconcileServiceRemove_run in Hrun. simpl in Hrun.
    fold target opts in Hrun.
    destruct (ServicesDelete target name opts (host w)) as [answer hst] eqn:Hd;
      simpl in Hrun.
    destruct (IsNotFound answer) eqn:Ha; injection Hrun as <- <-;
      (split; [by repeat split|]); (split; [|right]).
    + right. eexists; split; [reflexivity|discriminate].
    + eexists; split; [reflexivity|]. rewrite benign_answer, Ha.
      split; [reflexivity|]. by right.
    + by left.
    + eexists; split; [reflexivity|]. rewrite benign_answer, Ha.
      split; [reflexivity|]. by right.
Qed.

(** The three ways a run of [Reconcile] goes: no case of the [switch]
    matches; the type assertion panics; or the handler of the event kind
    runs, and its error decides the result and one more line of the log. *)
Lemma Reconcile_cases c request (w w' : World Host Queue MCC) r :
  Reconcile c request w = (r, w') →
  let w0 := with_log (entering request) w in
  (w' = w0 ∧ (∃ tag, Event request = OtherEvent tag)
   ∧ r = Ok ({| Requeue := false |}, None))
  ∨ (w' = w0 ∧ (∀ s, Obj request ≠ ObjService s)
     ∧ r = Panic (conversionPanic "interface {}" (Obj request)))
  ∨ (∃ service handler h w1,
       Obj request = ObjService service
       ∧ handlerFor (Event request) = Some handler
       ∧ handler c (ClusterName (ReqCluster request)) (ReqNamespace request)
           (ReqName request) service w0 = (h, w1)
       ∧ match h with
         | Ok (Some e) =>
           r = Ok ({| Requeue := true |}, Some e)
           ∧ ∃ fmt,
               w' = with_log
                      {| severity := ErrorLevel; format := fmt;
                         args := [LStr (ReqNamespace request);
                                  LStr (ReqName request);
                                  LStr (ClusterName (ReqCluster request));
                                  LErr (Some e)] |} w1
         | Ok None => r = Ok ({| Requeue := false |}, None) ∧ w' = w1
         | Panic msg => r = Panic msg ∧ w' = w1
         end).
Proof.
  intros Hrun w0.
  assert (Hservice : ∀ service handler,
            Obj request = ObjService service →
            handlerFor (Event request) = Some handler →
            ∃ h w1,
              handler c (ClusterName (ReqCluster request))
                (ReqNamespace request) (ReqName request) service w0 = (h, w1)
              ∧ match h with
                | Ok (Some e) =>
                  r = Ok ({| Requeue := true |}, Some e)
                  ∧ ∃ fmt,
                      w' = with_log
                             {| severity := ErrorLevel; format := fmt;
                                args := [LStr (ReqNamespace request);
                                         LStr (ReqName request);
                                         LStr (ClusterName (ReqCluster request));
                                         LErr (Some e)] |} w1
                | Ok None => r = Ok ({| Requeue := false |}, None) ∧ w' = w1
                | Panic msg => r = Panic msg ∧ w' = w1
                end).
  { intros service handler Hobj Hh.
    rewrite (Reconcile_handler c request service handler) in Hrun
      by assumption.
    fold w0 in Hrun.
    destruct (handler c _ _ _ service w0) as [h w1].
    exists h, w1. split; [reflexivity|].
    destruct h as [[e|]|msg]; injection Hrun as <- <-; eauto. }
  destruct (Obj request) as [|service| |] eqn:Hobj.
  2: { destruct (Event request) as [| | |tag] eqn:Hev.
       4: { left. rewrite (Reconcile_other c request tag) in Hrun
              by assumption.
            injection Hrun as <- <-. eauto. }
       - right; right.
         destruct (Hservice service reconcileServiceCreate eq_refl eq_refl)
           as (h & w1 & Hrun1 & Hh).
         by exists service, reconcileServiceCreate, h, w1.
       - right; right.
         destruct (Hservice service reconcileServiceUpdate eq_refl eq_refl)
           as (h & w1 & Hrun1 & Hh).
         by exists service, reconcileServiceUpdate, h, w1.
       - right; right.
         destruct (Hservice service reconcileServiceRemove eq_refl eq_refl)
           as (h & w1 & Hrun1 & Hh).
         by exists service, reconcileServiceRemove, h, w1. }
  all: destruct (Event request) as [| | |tag] eqn:Hev;
    try (left; rewrite (Reconcile_other c request tag) in Hrun
           by assumption;
         injection Hrun as <- <-; eauto; fail);
    right; left;
    rewrite Reconcile_not_service in Hrun by (rewrite ?Hobj; auto);
    rewrite Hobj in Hrun; injection Hrun as <- <-;
    (split; [reflexivity|]); (split; [intros s; discriminate|reflexivity]).
Qed.

(** X1 — Isolation.  Whatever the request and the world, a run of
    [Reconcile] makes no call to the super master and leaves its state
    alone, or it makes exactly one call: a Create, for a Create request, or
    a Delete of the request's name with the default deletion policy, for a
    Delete request; and that call goes to the namespace
    [ToSuperMasterNamespace] gives for the request's cluster and namespace.
    This holds also for a run that panics. *)
Theorem reconcile_calls_translated_namespace
  c request (w : World Host Queue MCC) :
  let w' := snd (Reconcile c request w) in
  let target := ToSuperMasterNamespace (ClusterName (ReqCluster request))
                  (ReqNamespace request) in
  (hostCalls w' = hostCalls w ∧ host w' = host w)
  ∨ (Event request = AddEvent
     ∧ ∃ copy answer,
         hostCalls w' = hostCalls w ++ [CallCreate target copy answer])
  ∨ (Event request = DeleteEvent
     ∧ ∃ answer,
         hostCalls w' = hostCalls w ++
           [CallDelete target (ReqName request)
              {| PropagationPolicy := Some DefaultDeletionPolicy |} answer]).
Proof.
  destruct (Reconcile c request w) as [r w'] eqn:Hrun. simpl.
  apply Reconcile_cases in Hrun
    as [(-> & _ & _)|[(-> & _ & _)
       |(service & handler & h & w1 & Hobj & Hh & Hrun1 & Hres)]];
    [by left..|].
  apply (handler_effect c (Event request)) in Hrun1
    as (_ & _ & Hcalls); [|assumption].
  assert (Hsame : hostCalls w' = hostCalls w1 ∧ host w' = host w1).
  { destruct h as [[e|]|msg];
      [destruct Hres as (_ & fmt & ->)|destruct Hres as (_ & ->)..]; done. }
  destruct Hsame as [-> ->].
  destruct Hcalls as [(-> & _)|(call & -> & _ & Hkind)]; [by left|].
  right. destruct Hkind as [(Hev & p & _ & -> & _)|(Hev & -> & _)].
  - left. eauto.
  - right. eauto.
Qed.

(** X2 — Frame.  A run of [Reconcile] never touches the work queue, the
    engine, the handlers attached to the informer or the controllers of the
    manager; and it only appends to the log: first its entry line, then at
    most two more lines. *)
Theorem reconcile_keeps_wiring c request (w : World Host Queue MCC) :
  let w' := snd (Reconcile c request w) in
  sameWiring w w'
  ∧ ∃ added, klog w' = klog w ++ entering request :: added
             ∧ (List.length added ≤ 2)%nat.
Proof.
  destruct (Reconcile c request w) as [r w'] eqn:Hrun. simpl.
  apply Reconcile_cases in Hrun
    as [(-> & _ & _)|[(-> & _ & _)
       |(service & handler & h & w1 & Hobj & Hh & Hrun1 & Hres)]].
  1, 2: split; [by repeat split|]; exists []; simpl; split; [done|lia].
  apply (handler_effect c (Event request)) in Hrun1
    as (Hwire & Hlog & _); [|assumption].
  assert (Hquiet : ∃ quiet, klog w1 = klog w ++ entering request :: quiet
                            ∧ (List.length quiet ≤ 1)%nat).
  { destruct Hlog as [->|(entry & -> & _)]; simpl.
    - exists []. split; [done|simpl; lia].
    - exists [entry]. split; [by rewrite <- app_assoc|simpl; lia]. }
  destruct Hquiet as (quiet & Hquiet & Hlen).
  destruct Hwire as (Hq & Hm & Hi & Hc). simpl in Hq, Hm, Hi, Hc.
  destruct h as [[e|]|msg].
  - destruct Hres as (_ & fmt & ->). split; [by repeat split|].
    eexists (quiet ++ [_]). simpl. rewrite Hquiet. split.
    + by rewrite <- app_assoc.
    + rewrite length_app. simpl. lia.
  - destruct Hres as (_ & ->). split; [by repeat split|].
    exists quiet. split; [done|lia].
  - destruct Hres as (_ & ->). split; [by repeat split|].
    exists quiet. split; [done|lia].
Qed.

(** X3 — The answer decides the result.  When a run of [Reconcile] made a
    call to the super master, the result is read off its answer: a nil
    answer, "already exists" to a Create and "not found" to a Delete give
    [Result{Requeue: false}] with a nil error, and every other answer gives
    [Result{Requeue: true}] with that very answer as the error. *)
Theorem reconcile_result_by_answer
  c request (w w' : World Host Queue MCC) r call :
  Reconcile c request w = (r, w') →
  hostCalls w' = hostCalls w ++ [call] →
  r = Ok (if benign call
          then ({| Requeue := false |}, None)
          else ({| Requeue := true |}, answerOf call)).
Proof.
  intros Hrun Hcall.
  apply Reconcile_cases in Hrun
    as [(-> & _ & _)|[(-> & _ & _)
       |(service & handler & h & w1 & Hobj & Hh & Hrun1 & Hres)]];
    [by apply snoc_neq_self in Hcall..|].
  apply (handler_effect c (Event request)) in Hrun1
    as (_ & _ & Hcalls); [|assumption].
  assert (Hc : hostCalls w' = hostCalls w1).
  { destruct h as [[e|]|msg];
      [destruct Hres as (_ & fmt & ->)|destruct Hres as (_ & ->)..]; done. }
  rewrite Hc in Hcall.
  destruct Hcalls as [(-> & _)|(call' & Hcall' & -> & _)];
    [by apply snoc_neq_self in Hcall|].
  rewrite Hcall' in Hcall. apply snoc_inj_self in Hcall as ->.
  destruct call as [? ? [e|]|? ? ? [e|]]; simpl in *;
    try (by destruct Hres as [-> _]).
  - destruct (IsAlreadyExists (Some e)); by destruct Hres as [-> _].
  - destruct (IsNotFound (Some e)); by destruct Hres as [-> _].
Qed.

(** X4 — Requeue exactly on error.  Whenever [Reconcile] returns, it asks
    for a requeue if and only if the error it returns is not nil. *)
Theorem reconcile_requeue_iff_error
  c request (w : World Host Queue MCC) res err :
  fst (Reconcile c request w) = Ok (res, err) →
  Requeue res = true ↔ err ≠ None.
Proof.
  destruct (Reconcile c request w) as [r w'] eqn:Hrun. simpl. intros ->.
  apply Reconcile_cases in Hrun
    as [(_ & _ & Hr)|[(_ & _ & Hr)
       |(service & handler & h & w1 & _ & _ & _ & Hres)]].
  - by simplify_eq.
  - discriminate.
  - destruct h as [[e|]|msg]; destruct Hres as [Hr _]; by simplify_eq.
Qed.

(** X5 — Returned errors are logged.  When [Reconcile] returns an error,
    the last line of the log is an error line that carries the namespace,
    the name, the cluster and that error; when it returns a nil error, it
    has logged no line at the error level. *)
Theorem reconcile_logs_returned_error
  c request (w : World Host Queue MCC) res err :
  fst (Reconcile c request w) = Ok (res, err) →
  let w' := snd (Reconcile c request w) in
  match err with
  | Some e =>
    ∃ before fmt,
      klog w' = before ++
        [{| severity := ErrorLevel; format := fmt;
            args := [LStr (ReqNamespace request); LStr (ReqName request);
                     LStr (ClusterName (ReqCluster request));
                     LErr (Some e)] |}]
  | None =>
    ∃ added, klog w' = klog w ++ added
             ∧ Forall (λ entry, severity entry ≠ ErrorLevel) added
  end.
Proof.
  destruct (Reconcile c request w) as [r w'] eqn:Hrun. simpl. intros ->.
  apply Reconcile_cases in Hrun
    as [(-> & _ & Hr)|[(_ & _ & Hr)
       |(service & handler & h & w1 & _ & Hh & Hrun1 & Hres)]].
  - simplify_eq. exists [entering request]. split; [done|].
    by repeat constructor.
  - discriminate.
  - apply (handler_effect c (Event request)) in Hrun1
      as (_ & Hlog & _); [|assumption].
    destruct h as [[e|]|msg].
    + destruct Hres as (Hr & fmt & ->). simplify_eq. simpl. eauto.
    + destruct Hres as (Hr & ->). simplify_eq.
      destruct Hlog as [->|(entry & -> & Hsev)]; simpl.
      * exists [entering request]. split; [done|]. by repeat constructor.
      * exists [entering request; entry]. split; [by rewrite <- app_assoc|].
        by repeat constructor.
    + by destruct Hres as [? _].
Qed.

(** X6 — Delete goes by the request.  A Delete request that carries a
    service always makes exactly one call: the Delete of the request's name
    in the translated namespace, with the default deletion policy.  The
    service the request carries is not looked at: neither its name nor its
    namespace reach the call.  The super master is left as that call leaves
    it. *)
Theorem delete_calls_request_name
  c request service (w : World Host Queue MCC) :
  Event request = DeleteEvent →
  Obj request = ObjService service →
  let target := ToSuperMasterNamespace (ClusterName (ReqCluster request))
                  (ReqNamespace request) in
  let opts := {| PropagationPolicy := Some DefaultDeletionPolicy |} in
  let answer := ServicesDelete target (ReqName request) opts (host w) in
  let w' := snd (Reconcile c request w) in
  hostCalls w' = hostCalls w ++
    [CallDelete target (ReqName request) opts (fst answer)]
  ∧ host w' = snd answer.
Proof.
  intros Hev Hobj target opts answer w'. subst w'.
  rewrite (Reconcile_handler c request service reconcileServiceRemove)
    by (by rewrite ?Hev).
  rewrite reconcileServiceRemove_run. simpl. fold target opts answer.
  destruct (IsNotFound (fst answer)); [done|].
  by destruct (fst answer).
Qed.

(** X7 — Add notifications.  Given the nil interface or an object behind
    a pointer that is not nil, the add handler [Register] attaches returns
    without a panic and without a call to the super master.  A
    [cache.ExplicitKey] is added to the work queue as it is; any other object
    with metadata is added as [namespace/name], or as the name alone when
    the namespace is empty; for any other object, the nil interface
    included, the queue is left alone and the error of the key function is
    logged in one line at the error level. *)
Theorem add_notification_enqueues_or_logs c obj (w : World Host Queue MCC) :
  let w' := snd (OnAdd (serviceEventHandler c) obj w) in
  fst (OnAdd (serviceEventHandler c) obj w) = Ok tt
  ∧ host w' = host w ∧ hostCalls w' = hostCalls w
  ∧ match obj with
    | ObjExplicitKey key => w' = with_queue (QueueAdd key (queue w)) w
    | _ =>
      match Accessor obj with
      | Some m =>
        w' = with_queue
               (QueueAdd (if (0 <? String.length (Namespace m))%nat
                          then Namespace m +:+ "/" +:+ Name m
                          else Name m) (queue w)) w
      | None =>
        queue w' = queue w
        ∧ ∃ entry e,
            klog w' = klog w ++ [entry]
            ∧ severity entry = ErrorLevel
            ∧ args entry = [LErr (Some e)]
            ∧ snd (MetaNamespaceKeyFunc obj) = Some e
      end
    end.
Proof.
  unfold OnAdd, enqueueService, MetaNamespaceKeyFunc. simpl.
  destruct obj as [|s|key|t [m|]]; simpl.
  - repeat apply conj; try done. by eexists _, _.
  - by destruct (0 <? String.length (Namespace (Meta s)))%nat.
  - done.
  - by destruct (0 <? String.length (Namespace m))%nat.
  - repeat apply conj; try done. by eexists _, _.
Qed.

(** X8 — Update notifications of other objects.  The update handler
    [Register] attaches panics when the new or the old object is not a
    service, the nil interface included, and it does so before it touches the
    world: nothing is queued and nothing is logged. *)
Theorem update_notification_panics_on_other_objects
  c oldObj newObj (w : World Host Queue MCC) :
  (∀ s, newObj ≠ ObjService s) ∨ (∀ s, oldObj ≠ ObjService s) →
  OnUpdate (serviceEventHandler c) oldObj newObj w =
  (Panic (conversionPanic "interface {}"
            (match newObj with ObjService _ => oldObj | _ => newObj end)), w).
Proof.
  intros Hother. unfold OnUpdate, updateService, assertService. simpl.
  unfold mbind, mret, M_bind, M_ret, panic.
  destruct newObj as [|new| |]; try reflexivity.
  destruct oldObj as [|old| |]; try reflexivity.
  destruct Hother as [Hother|Hother]; by edestruct Hother.
Qed.

(** X9 — Registration is all or nothing.  Called with an informer and a
    manager that are not nil, [Register] returns without a panic and without
    a call to the super master.  Either it attaches exactly one handler to
    the informer and adds exactly one controller to the manager, the
    controller the handler was built from, with the default number of
    workers and a new queue, and logs nothing; or it changes nothing but the
    log, to which it adds one error line: no handler, no controller, and the
    queue and the engine as they were. *)
Theorem register_all_or_nothing (w : World Host Queue MCC) :
  let w' := snd (Register w) in
  fst (Register w) = Ok tt
  ∧ host w' = host w ∧ hostCalls w' = hostCalls w
  ∧ ((∃ c, informerHandlers w' = informerHandlers w ++ [serviceEventHandler c]
           ∧ managerControllers w' = managerControllers w ++ [c]
           ∧ workers c = DefaultControllerWorkers
           ∧ queue w' = NewNamedRateLimitingQueue "super_master_service"
           ∧ klog w' = klog w)
     ∨ (∃ e, w' = with_log
                    {| severity := ErrorLevel;
                       format := "failed to create multi cluster service controller %v";
                       args := [LErr (Some e)] |} w)).
Proof.
  unfold Register.
  destruct (NewController _ _ _) as [m [e|]]; simpl.
  - repeat split. right. by exists e.
  - repeat split. left. eexists. by repeat split.
Qed.

(** X11 — Watching a cluster.  Called with a cluster that is not nil and
    with an engine in place, [AddCluster] does not panic and never calls the
    super master; it hands the cluster to the
    engine's [WatchClusterResource], and an error of that call is logged and
    goes no further: [AddCluster] returns all the same, and the queue, the
    handlers and the controllers stay as they are. *)
Theorem add_cluster_swallows_watch_error c cluster m (w : World Host Queue MCC) :
  mcc w = Some m →
  let watch := WatchClusterResource cluster EmptyWatchOptions m in
  let w' := snd (AddCluster c cluster w) in
  let info := {| severity := InfoLevel;
                 format := "tenant-masters-service-controller watch cluster %s for service resource";
                 args := [LStr (ClusterName cluster)] |} in
  fst (AddCluster c cluster w) = Ok tt
  ∧ mcc w' = Some (snd watch)
  ∧ host w' = host w ∧ hostCalls w' = hostCalls w
  ∧ queue w' = queue w
  ∧ informerHandlers w' = informerHandlers w
  ∧ managerControllers w' = managerControllers w
  ∧ klog w' = klog w ++ info ::
      match fst watch with
      | Some e =>
        [{| severity := ErrorLevel;
            format := "failed to watch cluster %s service event: %v";
            args := [LStr (ClusterName cluster); LErr (Some e)] |}]
      | None => []
      end.
Proof.
  intros Hm watch w' info. subst w' watch.
  unfold AddCluster, mcc_WatchClusterResource, Infof, Errorf,
    mbind, mret, M_bind, M_ret.
  simpl. rewrite Hm.
  destruct (WatchClusterResource cluster EmptyWatchOptions m) as [[e|] m'];
    simpl; repeat split; by rewrite <- ?app_assoc.
Qed.

(** X12 — Replay of a Create.  Take a super master on which, once a Create
    was answered nil or "already exists", the same Create again is answered
    "already exists" and changes nothing.  Then a Create request whose
    reconciliation succeeded can be reconciled again: the second run succeeds
    as well, and leaves the super master as the first run left it. *)
Theorem create_replay_is_idempotent c request (w : World Host Queue MCC) :
  (∀ ns svc h,
     let first := ServicesCreate ns svc h in
     snd (fst first) = None ∨ IsAlreadyExists (snd (fst first)) = true →
     let second := ServicesCreate ns svc (snd first) in
     IsAlreadyExists (snd (fst second)) = true ∧ snd second = snd first) →
  Event request = AddEvent →
  fst (Reconcile c request w) = Ok ({| Requeue := false |}, None) →
  let w1 := snd (Reconcile c request w) in
  fst (Reconcile c request w1) = Ok ({| Requeue := false |}, None)
  ∧ host (snd (Reconcile c request w1)) = host w1.
Proof.
  intros Hlaw Hev.
  destruct (Reconcile c request w) as [r w1] eqn:Hrun. simpl. intros ->.
  apply Reconcile_cases in Hrun
    as [(_ & (tag & Htag) & _)|[(_ & _ & Hr)
       |(service & handler & h & w0 & Hobj & Hh & Hrun1 & Hres)]];
    [congruence|discriminate|].
  pose proof Hrun1 as Heffect.
  apply (handler_effect c (Event request)) in Heffect
    as (_ & _ & Hcalls); [|assumption].
  destruct h as [[e|]|msg]; try (by destruct Hres as [? _]).
  destruct Hres as [_ ->].
  destruct Hcalls as [(_ & _ & Hupd)|(call & _ & Hbenign & Hkind)];
    [specialize (Hupd eq_refl); congruence|].
  destruct Hkind as [(_ & p & Hb & -> & Hhost)|(Hdel & _)]; [|congruence].
  rewrite benign_answer in Hbenign.
  set (target := ToSuperMasterNamespace (ClusterName (ReqCluster request))
                   (ReqNamespace request)) in *.
  set (first := ServicesCreate target (MutateService p)
                  (host (with_log (entering request) w))) in *.
  assert (Hfirst : snd (fst first) = None
                   ∨ IsAlreadyExists (snd (fst first)) = true).
  { destruct (IsAlreadyExists (snd (fst first))); [by right|left].
    by injection Hbenign. }
  destruct (Hlaw target (MutateService p)
              (host (with_log (entering request) w)) Hfirst)
    as [Hexists Hsame].
  fold first in Hexists, Hsame.
  rewrite (Reconcile_handler c request service reconcileServiceCreate)
    by (by rewrite ?Hev).
  rewrite reconcileServiceCreate_run. simpl. fold target. rewrite Hb, Hhost.
  rewrite Hexists. simpl. by rewrite Hsame.
Qed.

(** X13 — Create, then Delete.  Take a super master on which the Delete of
    an object that a Create has just stored is answered nil and restores the
    state before the Create.  Let a Create request be reconciled, its copy
    be stored by the super master, and the copy keep the request's name.
    Then the Delete request for the same cluster, namespace and name
    succeeds and leaves the super master as it was before the Create. *)
Theorem create_then_delete_round_trip
  c request service p (w : World Host Queue MCC) :
  let target := ToSuperMasterNamespace (ClusterName (ReqCluster request))
                  (ReqNamespace request) in
  let created := ServicesCreate target (MutateService p) (host w) in
  (∀ ns svc h opts,
     snd (fst (ServicesCreate ns svc h)) = None →
     ServicesDelete ns (Name (Meta svc)) opts (snd (ServicesCreate ns svc h))
     = (None, h)) →
  Event request = AddEvent →
  Obj request = ObjService service →
  BuildMetadata (ClusterName (ReqCluster request)) target (ObjService service)
  = (ObjService p, None) →
  Name (Meta (MutateService p)) = ReqName request →
  snd (fst created) = None →
  let removal := {| ReqCluster := ReqCluster request;
                    ReqNamespace := ReqNamespace request;
                    ReqName := ReqName request;
                    Event := DeleteEvent; Obj := Obj request |} in
  let w1 := snd (Reconcile c request w) in
  fst (Reconcile c request w) = Ok ({| Requeue := false |}, None)
  ∧ host w1 = snd created
  ∧ fst (Reconcile c removal w1) = Ok ({| Requeue := false |}, None)
  ∧ host (snd (Reconcile c removal w1)) = host w.
Proof.
  intros target created Hlaw Hev Hobj Hb Hname Hnil removal w1.
  assert (Hfirst : Reconcile c request w =
            (Ok ({| Requeue := false |}, None),
             with_host (snd created)
               (CallCreate target (MutateService p) None)
               (with_log (entering request) w))).
  { rewrite (Reconcile_handler c request service reconcileServiceCreate)
      by (by rewrite ?Hev).
    rewrite reconcileServiceCreate_run. simpl. fold target. rewrite Hb.
    fold created. by rewrite Hnil. }
  subst w1. rewrite Hfirst. simpl. split; [done|]. split; [done|].
  rewrite (Reconcile_handler c removal service reconcileServiceRemove)
    by done.
  rewrite reconcileServiceRemove_run. simpl. fold target. rewrite <- Hname.
  unfold created. rewrite Hlaw by exact Hnil. done.
Qed.

End Behaviour.

(** * The further properties on the scenario *)

(** A Create that times out is requeued with the timeout. *)
Lemma reconcile_result_by_answer_witness :
  fst (Reconcile ctrl (request AddEvent (ObjService web)) offline)
  = Ok ({| Requeue := true |}, Some (StatusError StatusReasonTimeout "timeout")).
Proof.
  etrans.
  - apply (reconcile_result_by_answer ctrl
             (request AddEvent (ObjService web)) offline
             (snd (Reconcile ctrl (request AddEvent (ObjService web)) offline))
             _
             (CallCreate "c1-default" mirrored_web
                (Some (StatusError StatusReasonTimeout "timeout")))).
    + apply surjective_pairing.
    + vm_compute; reflexivity.
  - reflexivity.
Defined.

(** The requeue of a Create that times out comes with an error. *)
Lemma reconcile_requeue_iff_error_witness :
  Requeue {| Requeue := true |} = true
  ↔ Some (StatusError StatusReasonTimeout "timeout") ≠ None.
Proof.
  apply (reconcile_requeue_iff_error ctrl
           (request AddEvent (ObjService web)) offline).
  vm_compute; reflexivity.
Defined.

(** The timeout of a Create is the last line of the log. *)
Lemma reconcile_logs_returned_error_witness :
  ∃ before fmt,
    klog (snd (Reconcile ctrl (request AddEvent (ObjService web)) offline))
    = before ++
      [{| severity := ErrorLevel; format := fmt;
          args := [LStr "default"; LStr "web"; LStr "c1";
                   LErr (Some (StatusError StatusReasonTimeout "timeout"))] |}].
Proof.
  apply (reconcile_logs_returned_error ctrl
           (request AddEvent (ObjService web)) offline {| Requeue := true |}
           (Some (StatusError StatusReasonTimeout "timeout"))).
  vm_compute; reflexivity.
Defined.

(** The Delete of [web] asks for [web] in [c1-default], in the background. *)
Lemma delete_calls_request_name_witness :
  hostCalls (snd (Reconcile ctrl (request DeleteEvent (ObjService web)) start))
  = [CallDelete "c1-default" "web"
       {| PropagationPolicy := Some DeletePropagationBackground |}
       (Some (StatusError StatusReasonNotFound "not found"))].
Proof.
  destruct (delete_calls_request_name ctrl
              (request DeleteEvent (ObjService web)) web start
              eq_refl eq_refl) as [Hcalls _].
  rewrite Hcalls. vm_compute; reflexivity.
Defined.

(** [web] is queued as [default/web]; the nil interface is not queued. *)
Lemma add_notification_enqueues_or_logs_witness :
  queue (snd (OnAdd (serviceEventHandler ctrl) (ObjService web) start))
  = ["default/web"]
  ∧ queue (snd (OnAdd (serviceEventHandler ctrl) ObjNil start)) = [].
Proof.
  split.
  - destruct (add_notification_enqueues_or_logs ctrl (ObjService web) start)
      as (_ & _ & _ & Hmeta).
    etrans; [exact (f_equal queue Hmeta)|vm_compute; reflexivity].
  - destruct (add_notification_enqueues_or_logs ctrl ObjNil start)
      as (_ & _ & _ & Hqueue & _).
    exact Hqueue.
Defined.

(** An update whose new object is the nil interface panics. *)
Lemma update_notification_panics_on_other_objects_witness :
  OnUpdate (serviceEventHandler ctrl) (ObjService web) ObjNil start
  = (Panic "interface conversion: interface {} is nil, not *v1.Service", start).
Proof.
  apply (update_notification_panics_on_other_objects ctrl (ObjService web)
           ObjNil start).
  left. intros s. discriminate.
Defined.

(** After [Register], [AddCluster] of [c1] makes the engine watch [c1]. *)
Lemma add_cluster_swallows_watch_error_witness :
  fst (AddCluster ctrl c1 (snd (Register start))) = Ok tt
  ∧ mcc (snd (AddCluster ctrl c1 (snd (Register start)))) = Some ["c1"].
Proof.
  assert (Hengine : mcc (snd (Register start)) = Some [])
    by (vm_compute; reflexivity).
  destruct (add_cluster_swallows_watch_error ctrl c1 [] (snd (Register start))
              Hengine) as (Hret & Hmcc & _).
  split; [exact Hret|]. rewrite Hmcc. vm_compute; reflexivity.
Defined.

(** The store of the scenario answers "already exists" to a repeated
    Create, and changes nothing then. *)
Lemma create_replay_is_idempotent_witness :
  fst (Reconcile ctrl (request AddEvent (ObjService web))
         (snd (Reconcile ctrl (request AddEvent (ObjService web)) start)))
  = Ok ({| Requeue := false |}, None)
  ∧ host (snd (Reconcile ctrl (request AddEvent (ObjService web))
                 (snd (Reconcile ctrl (request AddEvent (ObjService web))
                         start))))
    = host (snd (Reconcile ctrl (request AddEvent (ObjService web)) start)).
Proof.
  apply (create_replay_is_idempotent ctrl (request AddEvent (ObjService web))
           start).
  - intros ns svc h. simpl.
    destruct (h !! (ns, Name (Meta svc))) eqn:Hl; simpl; intros _.
    + by rewrite Hl.
    + by rewrite lookup_insert_eq.
  - reflexivity.
  - vm_compute; reflexivity.
Defined.

(** On the store of the scenario, mirroring [web] and removing it again
    leaves the super master empty. *)
Lemma create_then_delete_round_trip_witness :
  fst (Reconcile ctrl (request DeleteEvent (ObjService web))
         (snd (Reconcile ctrl (request AddEvent (ObjService web)) start)))
  = Ok ({| Requeue := false |}, None)
  ∧ host (snd (Reconcile ctrl (request DeleteEvent (ObjService web))
                 (snd (Reconcile ctrl (request AddEvent (ObjService web))
                         start))))
    = empty_host.
Proof.
  assert (Hcopy : BuildMetadata "c1" (ToSuperMasterNamespace "c1" "default")
                    (ObjService web) = (ObjService copied_web, None))
    by (vm_compute; reflexivity).
  destruct (create_then_delete_round_trip ctrl
              (request AddEvent (ObjService web)) web copied_web start)
    as (_ & _ & Hret & Hhost).
  - intros ns svc h opts. simpl.
    destruct (h !! (ns, Name (Meta svc))) eqn:Hl; simpl; [discriminate|].
    intros _. rewrite lookup_insert_eq. by rewrite delete_insert_id.
  - reflexivity.
  - reflexivity.
  - exact Hcopy.
  - reflexivity.
  - vm_compute; reflexivity.
  - split; [exact Hret|exact Hhost].
Defined.
